(** * save_dummy.py: the pystyl driver script

    The script builds a [pystyl] corpus from a directory, vectorises it,
    prints four values and pickles a 4-tuple into [dummy.p].  Everything
    that happens inside [pystyl], [scipy] and [numpy] is reached through
    the interface [PyStyl] below; the script itself is embedded as a
    program of a state-and-exception monad over the interpreter's world
    (file system, standard streams, and a trace of what the script did). *)

From stdpp Require Import gmap strings list fin_maps.
From Stdlib Require Import ZArith.

Local Open Scope Z_scope.
Local Open Scope string_scope.
Local Open Scope list_scope.

(** ** Python objects and exceptions *)

(** The objects that pass through the script.  A float is kept by its
    IEEE-754 bit pattern; an instance of a library class (a scipy sparse
    matrix, a numpy array) by its class name and pickled state. *)
#[warnings="-register-all"] Inductive pyobj : Type :=
| PyNone
| PyInt (n : Z)
| PyFloat (bits : Z)
| PyStr (s : string)
| PyList (items : list pyobj)
| PyTuple (items : list pyobj)
| PyInstance (cls : string) (state : list pyobj).

(** A raised exception: its class and its message.  Only subclasses of
    [Exception] are meant. *)
Inductive exn : Type :=
| Exn (cls msg : string).

Inductive result (A : Type) : Type :=
| Ok (a : A)
| Err (e : exn).
Arguments Ok {A} a.
Arguments Err {A} e.

(** ** The interpreter's world *)

Inductive chunk : Type :=
| Raw (bytes : string)
| Pickled (obj : pyobj).

Inductive node : Type :=
| Dir
| File (content : list chunk).

(** An argument of a call, positional ([None]) or by keyword. *)
Inductive arg : Type :=
| AStr (s : string)
| AInt (n : Z).

Inductive event : Type :=
| Call (method : string) (args : list (option string * arg))
| Return (method : string)
| Raised (e : exn)
| Print (o : pyobj)
| Open (path mode : string)
| Dump (obj : pyobj) (path : string).

Record World : Type := mkWorld {
  fs : gmap string node;
  readonly : gset string;
  argv : list string;
  environ : gmap string string;
  stdout : list pyobj;
  stderr : list exn;
  trace : list event
}.

Definition set_fs (f : gmap string node) (w : World) : World :=
  mkWorld f (readonly w) (argv w) (environ w) (stdout w) (stderr w) (trace w).
Definition set_argv (a : list string) (w : World) : World :=
  mkWorld (fs w) (readonly w) a (environ w) (stdout w) (stderr w) (trace w).
Definition set_environ (e : gmap string string) (w : World) : World :=
  mkWorld (fs w) (readonly w) (argv w) e (stdout w) (stderr w) (trace w).
Definition set_stdout (o : list pyobj) (w : World) : World :=
  mkWorld (fs w) (readonly w) (argv w) (environ w) o (stderr w) (trace w).
Definition set_stderr (o : list exn) (w : World) : World :=
  mkWorld (fs w) (readonly w) (argv w) (environ w) (stdout w) o (trace w).
Definition set_trace (t : list event) (w : World) : World :=
  mkWorld (fs w) (readonly w) (argv w) (environ w) (stdout w) (stderr w) t.

(** ** The monad of script statements *)

Definition M (A : Type) : Type := World -> result A * World.

Definition ret {A} (a : A) : M A := fun w => (Ok a, w).

Definition bind {A B} (m : M A) (k : A -> M B) : M B :=
  fun w =>
    match m w with
    | (Ok a, w') => k a w'
    | (Err e, w') => (Err e, w')
    end.

Notation "x <- m ;; k" := (bind m (fun x => k))
  (at level 100, m at next level, right associativity).
Notation "m ;;; k" := (bind m (fun _ => k))
  (at level 100, right associativity).

Definition log (ev : event) : M unit :=
  fun w => (Ok tt, set_trace (trace w ++ [ev]) w).

(** [raise e]: the exception is recorded where it is raised. *)
Definition raise {A} (e : exn) : M A :=
  fun w => (Err e, set_trace (trace w ++ [Raised e]) w).

(** The outcome of an expression evaluated in the library. *)
Definition lift {A} (r : result A) : M A :=
  match r with
  | Ok a => ret a
  | Err e => raise e
  end.

Definition read_fs : M (gmap string node) := fun w => (Ok (fs w), w).

(** ** Built-ins used by the script *)

(** [print(o)] *)
Definition print (o : pyobj) : M unit :=
  fun w => (Ok tt, set_trace (trace w ++ [Print o]) (set_stdout (stdout w ++ [o]) w)).

(** [open(path, "wb")]: fails on a directory or an unwritable path,
    otherwise creates the file or truncates the one that is there. *)
Definition open_wb (path : string) : M string :=
  fun w =>
    match fs w !! path with
    | Some Dir => raise (Exn "IsADirectoryError" path) w
    | _ =>
        if decide (path ∈ readonly w)
        then raise (Exn "PermissionError" path) w
        else (Ok path,
              set_trace (trace w ++ [Open path "wb"]) (set_fs (<[path := File []]> (fs w)) w))
    end.

(** [pickle.dump(obj, f)] on a file opened for writing; a write to an
    opened file is taken to succeed. *)
Definition pickle_dump (obj : pyobj) (f : string) : M unit :=
  fun w =>
    match fs w !! f with
    | Some (File content) =>
        (Ok tt,
         set_trace (trace w ++ [Dump obj f])
           (set_fs (<[f := File (content ++ [Pickled obj])]> (fs w)) w))
    | _ => raise (Exn "ValueError" "I/O operation on closed file") w
    end.

(** A list comprehension [[f(x) for x in l]]: left to right, the first
    exception ends it. *)
Fixpoint comprehension {A B} (f : A -> result B) (l : list A) : result (list B) :=
  match l with
  | [] => Ok []
  | x :: l' =>
      match f x with
      | Err e => Err e
      | Ok y =>
          match comprehension f l' with
          | Err e => Err e
          | Ok ys => Ok (y :: ys)
          end
      end
  end.

(** ** The interface of the libraries *)

Class PyStyl : Type := {
  (** the state of a [pystyl.corpus.Corpus] object *)
  Corpus : Type;
  (** [Corpus(language=...)] *)
  Corpus_new : string -> result Corpus;
  (** [corpus.add_directory(directory)], which reads the file system *)
  add_directory : gmap string node -> string -> Corpus -> result Corpus;
  (** [corpus.preprocess()] *)
  preprocess : Corpus -> result Corpus;
  (** [corpus.tokenize(max_size=...)] *)
  tokenize : Z -> Corpus -> result Corpus;
  (** [corpus.vectorize(mfi=..., ngram_type=..., vector_space=...)] *)
  vectorize : Z -> string -> string -> Corpus -> result Corpus;
  (** [corpus.vectorizer.X] *)
  vectorizer_X : Corpus -> result pyobj;
  (** [X.shape] *)
  shape : pyobj -> result pyobj;
  (** [corpus.titles] *)
  titles : Corpus -> result pyobj;
  (** the items that iterating [corpus.target_ints] yields *)
  target_ints : Corpus -> result (list pyobj);
  (** [corpus.target_idx[i]] *)
  target_idx_getitem : Corpus -> pyobj -> result pyobj;
  (** [corpus.vectorizer.feature_names] *)
  feature_names : Corpus -> result pyobj;
  (** [X.toarray()] *)
  toarray : pyobj -> result pyobj
}.

Section Script.

Context {lib : PyStyl}.

(** A method of the library called by the script: the call and its
    arguments are recorded, then its return or the exception it raises. *)
Definition method {A} (name : string) (args : list (option string * arg))
    (body : result A) : M A :=
  log (Call name args) ;;;
  a <- lift body ;;
  log (Return name) ;;;
  ret a.

Definition call_Corpus (language : string) : M Corpus :=
  method "Corpus" [(Some "language", AStr language)] (Corpus_new language).

Definition call_add_directory (corpus : Corpus) (directory : string) : M Corpus :=
  files <- read_fs ;;
  method "add_directory" [(None, AStr directory)] (add_directory files directory corpus).

Definition call_preprocess (corpus : Corpus) : M Corpus :=
  method "preprocess" [] (preprocess corpus).

Definition call_tokenize (corpus : Corpus) (max_size : Z) : M Corpus :=
  method "tokenize" [(Some "max_size", AInt max_size)] (tokenize max_size corpus).

Definition call_vectorize (corpus : Corpus) (mfi : Z) (ngram_type vector_space : string)
    : M Corpus :=
  method "vectorize"
    [(Some "mfi", AInt mfi); (Some "ngram_type", AStr ngram_type);
     (Some "vector_space", AStr vector_space)]
    (vectorize mfi ngram_type vector_space corpus).

(** ** The script, statement by statement *)

Definition script : M unit :=
  corpus <- call_Corpus "en" ;;
  corpus <- call_add_directory corpus "data/victorian" ;;
  corpus <- call_preprocess corpus ;;
  corpus <- call_tokenize corpus 50000 ;;
  corpus <- call_vectorize corpus 100 "word" "tf" ;;
  X <- lift (vectorizer_X corpus) ;;
  X_shape <- lift (shape X) ;;
  print X_shape ;;;
  titles <- lift (titles corpus) ;;
  print titles ;;;
  target_ints <- lift (target_ints corpus) ;;
  authors <- lift (comprehension (target_idx_getitem corpus) target_ints) ;;
  print (PyList authors) ;;;
  words <- lift (feature_names corpus) ;;
  print words ;;;
  array <- lift (toarray X) ;;
  f <- open_wb "dummy.p" ;;
  pickle_dump (PyTuple [titles; PyList authors; words; array]) f.

(** The interpreter running the script as its main module: an exception
    that reaches the top is reported on standard error and the exit
    status is 1, otherwise the exit status is 0. *)
Definition python (main : M unit) (w : World) : Z * World :=
  match main w with
  | (Ok _, w') => (0, w')
  | (Err e, w') => (1, set_stderr (stderr w' ++ [e]) w')
  end.

End Script.

Arguments open_wb : simpl never.
Arguments pickle_dump : simpl never.

(** ** What a run computes *)

Section Values.

Context {lib : PyStyl}.

Definition and_then {A B} (r : result A) (k : A -> result B) : result B :=
  match r with
  | Ok a => k a
  | Err e => Err e
  end.

(** The corpus after the four library stages, as a function of the file
    system the loader sees. *)
Definition stages (files : gmap string node) : result Corpus :=
  and_then (Corpus_new "en") (fun c =>
  and_then (add_directory files "data/victorian" c) (fun c =>
  and_then (preprocess c) (fun c =>
  and_then (tokenize 50000 c) (fun c =>
  vectorize 100 "word" "tf" c)))).

(** The values bound by the script's assignments. *)
Record Values : Type := mkValues {
  v_corpus : Corpus;
  v_X : pyobj;
  v_shape : pyobj;
  v_titles : pyobj;
  v_target_ints : list pyobj;
  v_authors : list pyobj;
  v_words : pyobj;
  v_array : pyobj
}.

Definition bound_by (files : gmap string node) (v : Values) : Prop :=
  stages files = Ok (v_corpus v) /\
  vectorizer_X (v_corpus v) = Ok (v_X v) /\
  shape (v_X v) = Ok (v_shape v) /\
  titles (v_corpus v) = Ok (v_titles v) /\
  target_ints (v_corpus v) = Ok (v_target_ints v) /\
  comprehension (target_idx_getitem (v_corpus v)) (v_target_ints v) = Ok (v_authors v) /\
  feature_names (v_corpus v) = Ok (v_words v) /\
  toarray (v_X v) = Ok (v_array v).

(** The tuple handed to [pickle.dump]. *)
Definition artifact (v : Values) : pyobj :=
  PyTuple [v_titles v; PyList (v_authors v); v_words v; v_array v].

Definition printed (v : Values) : list pyobj :=
  [v_shape v; v_titles v; PyList (v_authors v); v_words v].

(** The events of a complete run. *)
Definition complete_trace (v : Values) : list event :=
  [Call "Corpus" [(Some "language", AStr "en")]; Return "Corpus";
   Call "add_directory" [(None, AStr "data/victorian")]; Return "add_directory";
   Call "preprocess" []; Return "preprocess";
   Call "tokenize" [(Some "max_size", AInt 50000)]; Return "tokenize";
   Call "vectorize"
     [(Some "mfi", AInt 100); (Some "ngram_type", AStr "word");
      (Some "vector_space", AStr "tf")];
   Return "vectorize";
   Print (v_shape v); Print (v_titles v); Print (PyList (v_authors v));
   Print (v_words v);
   Open "dummy.p" "wb"; Dump (artifact v) "dummy.p"].

End Values.

(** ** Projections of a trace *)

Definition is_call (ev : event) : option (string * list (option string * arg)) :=
  match ev with
  | Call m args => Some (m, args)
  | _ => None
  end.

(** The library calls of a trace, with their arguments. *)
Definition calls (t : list event) : list (string * list (option string * arg)) :=
  omap is_call t.

Definition is_raised (ev : event) : option exn :=
  match ev with
  | Raised e => Some e
  | _ => None
  end.

Definition raises (t : list event) : list exn := omap is_raised t.

(** The outline of a trace: which stage was entered and left, and the
    two file operations of the serializer. *)
Inductive mark : Type :=
| Enter (method : string)
| Leave (method : string)
| Opened (path mode : string)
| Dumped (path : string).

Definition is_mark (ev : event) : option mark :=
  match ev with
  | Call m _ => Some (Enter m)
  | Return m => Some (Leave m)
  | Open p mode => Some (Opened p mode)
  | Dump _ p => Some (Dumped p)
  | _ => None
  end.

Definition outline (t : list event) : list mark := omap is_mark t.

Definition complete_outline : list mark :=
  [Enter "Corpus"; Leave "Corpus";
   Enter "add_directory"; Leave "add_directory";
   Enter "preprocess"; Leave "preprocess";
   Enter "tokenize"; Leave "tokenize";
   Enter "vectorize"; Leave "vectorize";
   Opened "dummy.p" "wb"; Dumped "dummy.p"].

(** What a run sends out: lines on standard output and file operations. *)
Definition is_output (ev : event) : option event :=
  match ev with
  | Print _ | Open _ _ | Dump _ _ => Some ev
  | _ => None
  end.

Definition outputs (t : list event) : list event := omap is_output t.

Definition is_file_op (ev : event) : option event :=
  match ev with
  | Open _ _ | Dump _ _ => Some ev
  | _ => None
  end.

Definition file_ops (t : list event) : list event := omap is_file_op t.

Definition is_print (ev : event) : option pyobj :=
  match ev with
  | Print o => Some o
  | _ => None
  end.

Definition prints (t : list event) : list pyobj := omap is_print t.

Definition expected_calls : list (string * list (option string * arg)) :=
  [("Corpus", [(Some "language", AStr "en")]);
   ("add_directory", [(None, AStr "data/victorian")]);
   ("preprocess", []);
   ("tokenize", [(Some "max_size", AInt 50000)]);
   ("vectorize",
    [(Some "mfi", AInt 100); (Some "ngram_type", AStr "word");
     (Some "vector_space", AStr "tf")])].


(** The outline of the library stages when all of them return. *)
Definition stage_outline : list mark := take 10 complete_outline.

Definition stage_methods : list string :=
  ["Corpus"; "add_directory"; "preprocess"; "tokenize"; "vectorize"].

(** Another command line and another environment for the same world. *)
Definition with_invocation (av : list string) (en : gmap string string)
    (w : World) : World :=
  set_argv av (set_environ en w).

(** [m] neither reads nor writes what [g] changes. *)
Definition ignores {A} (g : World -> World) (m : M A) : Prop :=
  forall w, m (g w) = ((m w).1, g (m w).2).

(** ** The shape of every run *)

Section RunShape.

Context {lib : PyStyl}.

(** A run either completes, with the values its assignments bound, or
    is cut short by the one exception that was raised.  Only a complete
    run touches the file system. *)
Inductive run_shape (w : World) : result unit -> World -> Prop :=
| run_complete v w' :
    bound_by (fs w) v ->
    fs w !! "dummy.p" <> Some Dir ->
    "dummy.p" ∉ readonly w ->
    trace w' = trace w ++ complete_trace v ->
    fs w' = <["dummy.p" := File [Pickled (artifact v)]]> (fs w) ->
    stdout w' = stdout w ++ printed v ->
    stderr w' = stderr w ->
    run_shape w (Ok tt) w'
| run_aborted e l w' :
    trace w' = trace w ++ l ->
    last l = Some (Raised e) ->
    raises l = [e] ->
    calls l `prefix_of` expected_calls ->
    outline l `prefix_of` stage_outline ->
    file_ops l = [] ->
    (forall e', stages (fs w) = Err e' -> e' = e /\ Leave "vectorize" ∉ outline l) ->
    fs w' = fs w ->
    stdout w' = stdout w ++ prints l ->
    stderr w' = stderr w ->
    run_shape w (Err e) w'.

End RunShape.

(** ** Running the script symbolically *)

Ltac unfold_run H :=
  cbv [script bind call_Corpus call_add_directory call_preprocess call_tokenize
       call_vectorize method log lift ret raise read_fs print
       fs readonly argv environ stdout stderr trace
       set_fs set_stdout set_trace set_stderr] in H.

Ltac next_statement H :=
  match type of H with
  | context [match ?r with Ok _ => _ | Err _ => _ end] =>
      let E := fresh "E" in destruct r eqn:E; unfold_run H
  end.

Ltac simpl_world :=
  cbn [fs readonly argv environ stdout stderr trace
       set_fs set_stdout set_trace set_stderr];
  rewrite <- ?(assoc_L (++)); cbn [app].

Ltac not_in_marks :=
  let Hin := fresh in
  intros Hin; cbn in Hin;
  repeat (apply elem_of_cons in Hin as [Hin|Hin]; [discriminate Hin|]);
  by apply elem_of_nil in Hin.

Ltac use_bindings :=
  unfold stages;
  repeat (match goal with E : _ = _ |- _ => rewrite E; clear E end;
          cbn [and_then]).

Ltac aborted :=
  match goal with
  | H : (Err ?e, ?w1) = (?r, ?w') |- _ =>
      injection H as <- <-;
      eapply run_aborted; simpl_world;
      first
        [ reflexivity
        | cbn; rewrite ?app_nil_r; reflexivity
        | by eexists
        | use_bindings; intros e' [= <-]; split; [done | not_in_marks]
        | use_bindings; intros e' [=] ]
  end.

(** ** A small library to run the script on *)

Module Sample.

(** Indexing a Python list: negative indices count from the end. *)
Definition list_getitem {A} (l : list A) (i : Z) : result A :=
  let n := Z.of_nat (length l) in
  let j := if (i <? 0)%Z then (i + n)%Z else i in
  match (if ((0 <=? j) && (j <? n))%Z then l !! Z.to_nat j else None) with
  | Some x => Ok x
  | None => Err (Exn "IndexError" "list index out of range")
  end.

Record corpus : Type := mkCorpus {
  language : string;
  doc_titles : list string;
  categories : list string;
  doc_categories : list Z;
  features : list string;
  counts : list (list Z)
}.

Definition load (files : gmap string node) (directory : string) (c : corpus)
    : result corpus :=
  match files !! directory with
  | Some Dir =>
      Ok (mkCorpus (language c) ["a"; "b"] ["Smith"; "Jones"] [0; 1]
            (features c) (counts c))
  | _ => Err (Exn "IOError" directory)
  end.

Definition count_terms (mfi : Z) (c : corpus) : result corpus :=
  Ok (mkCorpus (language c) (doc_titles c) (categories c) (doc_categories c)
        (take (Z.to_nat mfi) ["the"; "of"; "and"])
        (take (Z.to_nat mfi) <$> [[3; 1; 2]; [2; 2; 0]])).

Definition matrix_rows (X : pyobj) : result (list pyobj) :=
  match X with
  | PyInstance _ rows => Ok rows
  | _ => Err (Exn "AttributeError" "shape")
  end.

Definition row_length (row : pyobj) : Z :=
  match row with
  | PyList cells => Z.of_nat (length cells)
  | _ => 0
  end.

Definition matrix_shape (X : pyobj) : result pyobj :=
  and_then (matrix_rows X) (fun rows =>
    Ok (PyTuple [PyInt (Z.of_nat (length rows));
                 PyInt (row_length (default PyNone (head rows)))])).

Definition category_of (c : corpus) (i : pyobj) : result pyobj :=
  match i with
  | PyInt n => and_then (list_getitem (categories c) n) (fun s => Ok (PyStr s))
  | _ => Err (Exn "TypeError" "list indices must be integers")
  end.

#[local] Instance lib : PyStyl := {|
  Corpus := corpus;
  Corpus_new lang := Ok (mkCorpus lang [] [] [] [] []);
  add_directory := load;
  preprocess c := Ok c;
  tokenize _ c := Ok c;
  vectorize mfi _ _ c := count_terms mfi c;
  vectorizer_X c :=
    Ok (PyInstance "csr_matrix" ((fun row => PyList (PyInt <$> row)) <$> counts c));
  shape := matrix_shape;
  titles c := Ok (PyList (PyStr <$> doc_titles c));
  target_ints c := Ok (PyInt <$> doc_categories c);
  target_idx_getitem := category_of;
  feature_names c := Ok (PyList (PyStr <$> features c));
  toarray X := and_then (matrix_rows X) (fun rows => Ok (PyInstance "ndarray" rows))
|}.

(** A world with the corpus directory and an older [dummy.p]. *)
Definition world : World :=
  mkWorld (<["data/victorian" := Dir]> (<["dummy.p" := File [Raw "old"]]> ∅))
    ∅ ["save_dummy.py"] ∅ [] [] [].

(** A world without the corpus directory. *)
Definition empty_world : World :=
  mkWorld ∅ ∅ ["save_dummy.py"] ∅ [] [] [].

Definition values : Values :=
  mkValues
    (mkCorpus "en" ["a"; "b"] ["Smith"; "Jones"] [0; 1] ["the"; "of"; "and"]
       [[3; 1; 2]; [2; 2; 0]])
    (PyInstance "csr_matrix"
       [PyList [PyInt 3; PyInt 1; PyInt 2]; PyList [PyInt 2; PyInt 2; PyInt 0]])
    (PyTuple [PyInt 2; PyInt 3])
    (PyList [PyStr "a"; PyStr "b"])
    [PyInt 0; PyInt 1]
    [PyStr "Smith"; PyStr "Jones"]
    (PyList [PyStr "the"; PyStr "of"; PyStr "and"])
    (PyInstance "ndarray"
       [PyList [PyInt 3; PyInt 1; PyInt 2]; PyList [PyInt 2; PyInt 2; PyInt 0]]).

(** The world a complete run leaves behind. *)
Definition world_after : World :=
  mkWorld
    (<["dummy.p" := File [Pickled (artifact values)]]> (fs world))
    ∅ ["save_dummy.py"] ∅ (printed values) [] (complete_trace values).

Definition load_error : exn := Exn "IOError" "data/victorian".

(** The world a run without the corpus directory leaves behind. *)
Definition empty_world_after : World :=
  mkWorld ∅ ∅ ["save_dummy.py"] ∅ [] []
    [Call "Corpus" [(Some "language", AStr "en")]; Return "Corpus";
     Call "add_directory" [(None, AStr "data/victorian")]; Raised load_error].

End Sample.

(** ** Further definitions for the properties of whole runs *)

(** The world a complete run leaves behind. *)
Definition final_world `{lib : PyStyl} (w : World) (v : Values) : World :=
  mkWorld (<["dummy.p" := File [Pickled (artifact v)]]> (fs w))
    (readonly w) (argv w) (environ w) (stdout w ++ printed v) (stderr w)
    (trace w ++ complete_trace v).

(** [m] leaves the permissions, the command line and the environment
    as they are. *)
Definition keeps {A} (m : M A) : Prop :=
  forall w,
    readonly (m w).2 = readonly w /\
    argv (m w).2 = argv w /\
    environ (m w).2 = environ w.

(** Running the script when the outcome of each evaluation is known. *)
Ltac unfold_script :=
  cbv [script bind call_Corpus call_add_directory call_preprocess call_tokenize
       call_vectorize method log lift ret raise read_fs print
       fs readonly argv environ stdout stderr trace
       set_fs set_stdout set_trace set_stderr].

Ltac run_known :=
  unfold_script;
  repeat (match goal with
          | E : ?x = _ |- context [match ?x with Ok _ => _ | Err _ => _ end] =>
              rewrite E
          end;
          unfold_script).

(** ** Variants of the sample library *)

Module Variants.

Definition densify (X : pyobj) : result pyobj :=
  and_then (Sample.matrix_rows X) (fun rows => Ok (PyInstance "ndarray" rows)).

(** The sample library with its loader, its vectoriser and [toarray]
    replaced. *)
Definition lib_with
    (loader : gmap string node -> string -> Sample.corpus -> result Sample.corpus)
    (vectoriser : Z -> Sample.corpus -> result Sample.corpus)
    (dense : pyobj -> result pyobj) : PyStyl := {|
  Corpus := Sample.corpus;
  Corpus_new lang := Ok (Sample.mkCorpus lang [] [] [] [] []);
  add_directory := loader;
  preprocess c := Ok c;
  tokenize _ c := Ok c;
  vectorize mfi _ _ c := vectoriser mfi c;
  vectorizer_X c :=
    Ok (PyInstance "csr_matrix"
          ((fun row => PyList (PyInt <$> row)) <$> Sample.counts c));
  shape := Sample.matrix_shape;
  titles c := Ok (PyList (PyStr <$> Sample.doc_titles c));
  target_ints c := Ok (PyInt <$> Sample.doc_categories c);
  target_idx_getitem := Sample.category_of;
  feature_names c := Ok (PyList (PyStr <$> Sample.features c));
  toarray := dense
|}.

(** A loader whose second document points at a category that is not
    there. *)
Definition load_mislabelled (files : gmap string node) (directory : string)
    (c : Sample.corpus) : result Sample.corpus :=
  match files !! directory with
  | Some Dir =>
      Ok (Sample.mkCorpus (Sample.language c) ["a"; "b"] ["Smith"] [0; 1]
            (Sample.features c) (Sample.counts c))
  | _ => Err (Exn "IOError" directory)
  end.

Definition mislabelled : PyStyl :=
  lib_with load_mislabelled Sample.count_terms densify.

(** A loader that finds no document, and a vectoriser for it. *)
Definition load_nothing (files : gmap string node) (directory : string)
    (c : Sample.corpus) : result Sample.corpus :=
  match files !! directory with
  | Some Dir => Ok (Sample.mkCorpus (Sample.language c) [] [] [] [] [])
  | _ => Err (Exn "IOError" directory)
  end.

Definition count_nothing (mfi : Z) (c : Sample.corpus) : result Sample.corpus :=
  Ok c.

Definition no_documents : PyStyl := lib_with load_nothing count_nothing densify.

(** A matrix too large to be made dense. *)
Definition out_of_memory : exn := Exn "MemoryError" "".

Definition too_large : PyStyl :=
  lib_with Sample.load Sample.count_terms (fun _ => Err out_of_memory).

(** The sample world with [dummy.p] write-protected. *)
Definition locked_world : World :=
  mkWorld (fs Sample.world) {["dummy.p"]} ["save_dummy.py"] ∅ [] [] [].

Definition index_error : exn := Exn "IndexError" "list index out of range".

Definition empty_values : @Values no_documents :=
  @mkValues no_documents
    (Sample.mkCorpus "en" [] [] [] [] [])
    (PyInstance "csr_matrix" [])
    (PyTuple [PyInt 0; PyInt 0])
    (PyList [])
    []
    []
    (PyList [])
    (PyInstance "ndarray" []).

End Variants.

(** * Proofs *)

(** ** The serializer *)

Lemma open_wb_cases path w :
  (exists e, open_wb path w = (Err e, set_trace (trace w ++ [Raised e]) w)) \/
  (fs w !! path <> Some Dir /\ (path ∉ readonly w) /\
   open_wb path w =
     (Ok path,
      set_trace (trace w ++ [Open path "wb"]) (set_fs (<[path := File []]> (fs w)) w))).
Proof.
  unfold open_wb, raise.
  destruct (fs w !! path) as [[|content]|] eqn:Hn.
  - left. eauto.
  - destruct (decide (path ∈ readonly w)); [left; eauto | right; auto].
  - destruct (decide (path ∈ readonly w)); [left; eauto | right; auto].
Qed.

Lemma pickle_dump_fresh obj path t files w :
  pickle_dump obj path (set_trace t (set_fs (<[path := File []]> files) w)) =
    (Ok tt,
     set_trace (t ++ [Dump obj path]) (set_fs (<[path := File [Pickled obj]]> files) w)).
Proof.
  unfold pickle_dump. cbn [fs set_trace set_fs trace].
  rewrite lookup_insert_eq. cbn [app].
  rewrite insert_insert_eq. reflexivity.
Qed.

Section Runs.

Context {lib : PyStyl}.

Lemma script_run w r w' : script w = (r, w') -> run_shape w r w'.
Proof.
  intros H. destruct w as [files ro av en out err tr]. unfold_run H.
  do 12 (next_statement H; [| aborted]).
  match type of H with
  | context [open_wb ?p ?w0] =>
      destruct (open_wb_cases p w0) as [[e Ho] | (Hdir & Hro & Ho)];
      rewrite Ho in H; clear Ho
  end.
  - aborted.
  - rewrite pickle_dump_fresh in H. injection H as <- <-.
    apply (run_complete _ (mkValues a3 a4 a5 a6 a7 a8 a9 a10)); simpl_world;
      try done.
    unfold bound_by. cbn [v_corpus v_X v_shape v_titles v_target_ints v_authors
                          v_words v_array].
    repeat split; try assumption.
    use_bindings. reflexivity.
Qed.

End Runs.

(** ** List comprehensions *)

Lemma comprehension_Forall2 {A B} (f : A -> result B) l r :
  comprehension f l = Ok r -> Forall2 (fun x y => f x = Ok y) l r.
Proof.
  revert r. induction l as [|x l IH]; intros r H; cbn in H.
  - injection H as <-. constructor.
  - destruct (f x) as [y|e] eqn:Hx; [|discriminate].
    destruct (comprehension f l) as [ys|e]; [|discriminate].
    injection H as <-. constructor; auto.
Qed.

Lemma comprehension_Err {A B} (f : A -> result B) l e :
  comprehension f l = Err e -> exists x, x ∈ l /\ f x = Err e.
Proof.
  induction l as [|x l IH]; cbn; [discriminate|].
  destruct (f x) as [y|e'] eqn:Hx.
  - destruct (comprehension f l) as [ys|e'']; [discriminate|].
    intros [= <-]. destruct IH as (x' & Hin & Hx'); [done|].
    exists x'. split; [by right | done].
  - intros [= <-]. exists x. split; [by left | done].
Qed.

(** ** Statements that ignore the command line and the environment *)

Create HintDb ignores.

Section Invocation.

Context {lib : PyStyl} (av : list string) (en : gmap string string).

Lemma ignores_ret {A} (a : A) : ignores (with_invocation av en) (ret a).
Proof. intros w. reflexivity. Qed.

Lemma ignores_bind {A B} (m : M A) (k : A -> M B) :
  ignores (with_invocation av en) m ->
  (forall a, ignores (with_invocation av en) (k a)) ->
  ignores (with_invocation av en) (bind m k).
Proof.
  intros Hm Hk w. unfold bind. rewrite Hm.
  destruct (m w) as [[a|e] w1]; cbn [fst snd]; [apply Hk | reflexivity].
Qed.

Lemma ignores_log ev : ignores (with_invocation av en) (log ev).
Proof. intros w. reflexivity. Qed.

Lemma ignores_raise {A} e : ignores (with_invocation av en) (@raise A e).
Proof. intros w. reflexivity. Qed.

Lemma ignores_lift {A} (r : result A) : ignores (with_invocation av en) (lift r).
Proof. destruct r; [apply ignores_ret | apply ignores_raise]. Qed.

Lemma ignores_read_fs : ignores (with_invocation av en) read_fs.
Proof. intros w. reflexivity. Qed.

Lemma ignores_print o : ignores (with_invocation av en) (print o).
Proof. intros w. reflexivity. Qed.

Lemma ignores_open_wb path : ignores (with_invocation av en) (open_wb path).
Proof.
  intros w. unfold open_wb, with_invocation.
  cbn [fs readonly set_argv set_environ].
  destruct (fs w !! path) as [[|content]|];
    try destruct (decide (path ∈ readonly w)); reflexivity.
Qed.

Lemma ignores_pickle_dump obj f : ignores (with_invocation av en) (pickle_dump obj f).
Proof.
  intros w. unfold pickle_dump, with_invocation.
  cbn [fs set_argv set_environ].
  destruct (fs w !! f) as [[|content]|]; reflexivity.
Qed.

Hint Resolve ignores_ret ignores_log ignores_raise ignores_lift ignores_read_fs
  ignores_print ignores_open_wb ignores_pickle_dump : ignores.

Lemma ignores_method {A} name args (body : result A) :
  ignores (with_invocation av en) (method name args body).
Proof. unfold method. repeat (apply ignores_bind; [|intros]); auto with ignores. Qed.

Lemma ignores_script : ignores (with_invocation av en) script.
Proof.
  unfold script, call_Corpus, call_add_directory, call_preprocess, call_tokenize,
    call_vectorize.
  repeat (apply ignores_bind; [|intros]);
    auto using ignores_method with ignores.
Qed.

End Invocation.

(** ** Properties of the script *)

Section Claims.

Context {lib : PyStyl}.

Lemma outline_complete v : outline (complete_trace v) = complete_outline.
Proof. reflexivity. Qed.

Lemma calls_complete v : calls (complete_trace v) = expected_calls.
Proof. reflexivity. Qed.

Lemma stage_outline_prefix : stage_outline `prefix_of` complete_outline.
Proof. by eexists. Qed.

Lemma stages_left m : m ∈ stage_methods -> Leave m ∈ complete_outline.
Proof.
  unfold stage_methods, complete_outline. intros Hm.
  repeat (apply elem_of_cons in Hm as [->|Hm]; [set_solver|]).
  by apply elem_of_nil in Hm.
Qed.

(** C1: a complete run performs exactly two file operations, opening
    [dummy.p] for writing and dumping into it the tuple (titles, authors,
    words, dense matrix), in that order; afterwards [dummy.p] holds that
    pickled tuple and nothing else, whatever was at the path before, and
    no other path has changed. *)
Theorem serializer_writes_one_artifact w w' :
  script w = (Ok tt, w') ->
  exists v t,
    bound_by (fs w) v /\
    trace w' = trace w ++ t /\
    file_ops t =
      [Open "dummy.p" "wb";
       Dump (PyTuple [v_titles v; PyList (v_authors v); v_words v; v_array v])
         "dummy.p"] /\
    fs w' !! "dummy.p" =
      Some (File [Pickled (PyTuple [v_titles v; PyList (v_authors v);
                                    v_words v; v_array v])]) /\
    forall path, path <> "dummy.p" -> fs w' !! path = fs w !! path.
Proof.
  intros H. apply script_run in H. inversion H as [v w1 Hv ? ? Ht Hfs ? ? |]; subst.
  exists v, (complete_trace v).
  split; [exact Hv|]. split; [exact Ht|]. split; [reflexivity|]. split.
  - rewrite Hfs. apply lookup_insert_eq.
  - intros path Hne. rewrite Hfs. by apply lookup_insert_ne.
Qed.

(** C3: the library is called with language "en", max_size 50000, mfi 100,
    ngram_type "word" and vector_space "tf": the calls of any run are an
    initial part of that fixed list, all of it when the run completes, and
    neither the command line nor the environment changes the run. *)
Theorem parameters_are_hardcoded w r w' :
  script w = (r, w') ->
  (exists t,
     trace w' = trace w ++ t /\
     calls t `prefix_of`
       [("Corpus", [(Some "language", AStr "en")]);
        ("add_directory", [(None, AStr "data/victorian")]);
        ("preprocess", []);
        ("tokenize", [(Some "max_size", AInt 50000)]);
        ("vectorize",
         [(Some "mfi", AInt 100); (Some "ngram_type", AStr "word");
          (Some "vector_space", AStr "tf")])] /\
     (r = Ok tt -> calls t = expected_calls)) /\
  forall av en,
    script (with_invocation av en w) = (r, with_invocation av en w').
Proof.
  intros H. split.
  - apply script_run in H.
    inversion H as [v w1 ? ? ? Ht ? ? ? | e l w1 Ht ? ? Hc ? ? ? ? ? ?]; subst.
    + exists (complete_trace v).
      split; [exact Ht|]. split; [by eexists | reflexivity].
    + exists l. split; [exact Ht|]. split; [exact Hc | discriminate].
  - intros av en. rewrite ignores_script, H. reflexivity.
Qed.

(** C5: in every run the library stages are entered and left one after
    the other in the order Corpus, add_directory, preprocess, tokenize,
    vectorize, and the file is opened and written only after all of them
    have returned; when a stage does not return, or the stages end in an
    exception, the run performs no file operation and the file system is
    as it was. *)
Theorem stages_run_in_order w r w' :
  script w = (r, w') ->
  exists t,
    trace w' = trace w ++ t /\
    outline t `prefix_of`
      [Enter "Corpus"; Leave "Corpus";
       Enter "add_directory"; Leave "add_directory";
       Enter "preprocess"; Leave "preprocess";
       Enter "tokenize"; Leave "tokenize";
       Enter "vectorize"; Leave "vectorize";
       Opened "dummy.p" "wb"; Dumped "dummy.p"] /\
    (forall m, m ∈ stage_methods -> Leave m ∉ outline t ->
       file_ops t = [] /\ fs w' = fs w) /\
    (forall e, stages (fs w) = Err e ->
       r = Err e /\ file_ops t = [] /\ fs w' = fs w).
Proof.
  intros H. apply script_run in H.
  inversion H as [v w1 Hv ? ? Ht ? ? ? | e l w1 Ht ? ? ? Ho Hf Hs Hfs ? ?]; subst.
  - exists (complete_trace v).
    split; [exact Ht|]. split; [by eexists|]. split.
    + intros m Hm Hn. destruct Hn. rewrite outline_complete. by apply stages_left.
    + intros e He. destruct Hv as [Hv _]. congruence.
  - exists l.
    split; [exact Ht|]. split; [|split].
    + etrans; [exact Ho | apply stage_outline_prefix].
    + intros m _ _. split; [exact Hf | exact Hfs].
    + intros e' He'. destruct (Hs _ He') as [-> _].
      split; [reflexivity|]. split; [exact Hf | exact Hfs].
Qed.

(** C6: a run that raises nothing exits with status 0 and writes nothing
    to standard error; a run in which an exception is raised ends with
    that exception (it is the last event of the run and the only one
    raised), reports it on standard error and exits with status 1.  In
    particular an exception from a library stage gives status 1. *)
Theorem errors_abort_with_nonzero_status w code w' :
  python script w = (code, w') ->
  (exists t,
     trace w' = trace w ++ t /\
     ((code = 0 /\ (script w).1 = Ok tt /\ raises t = [] /\ stderr w' = stderr w) \/
      (code = 1 /\
       exists e, (script w).1 = Err e /\ last t = Some (Raised e) /\
                 raises t = [e] /\ stderr w' = stderr w ++ [e]))) /\
  (forall e, stages (fs w) = Err e -> code = 1 /\ stderr w' = stderr w ++ [e]).
Proof.
  unfold python. destruct (script w) as [r w1] eqn:H. apply script_run in H.
  inversion H as [v w2 Hv ? ? Ht ? ? He | e l w2 Ht Hl Hr ? ? ? Hs ? ? He]; subst;
    intros [= <- <-].
  - split.
    + exists (complete_trace v). split; [exact Ht|]. left.
      split; [reflexivity|]. split; [reflexivity|]. split; [reflexivity | exact He].
    + intros e Hs. destruct Hv as [Hv _]. congruence.
  - split.
    + exists l. split; [exact Ht|]. right. split; [reflexivity|].
      exists e. cbn [stderr set_stderr fst]. rewrite He.
      split; [reflexivity|]. split; [exact Hl|]. split; [exact Hr | reflexivity].
    + intros e' He'. destruct (Hs _ He') as [-> _].
      cbn [stderr set_stderr]. by rewrite He.
Qed.

(** C9: in a complete run the authors of the pickled tuple are the
    elements of [target_ints] looked up one by one, in order, in
    [target_idx]: as many authors as elements, the i-th author being the
    entry of the i-th element. *)
Theorem authors_follow_target_ints w w' :
  script w = (Ok tt, w') ->
  exists v,
    bound_by (fs w) v /\
    fs w' !! "dummy.p" =
      Some (File [Pickled (PyTuple [v_titles v; PyList (v_authors v);
                                    v_words v; v_array v])]) /\
    target_ints (v_corpus v) = Ok (v_target_ints v) /\
    length (v_authors v) = length (v_target_ints v) /\
    forall (i : nat) k,
      v_target_ints v !! i = Some k ->
      exists a, v_authors v !! i = Some a /\
                target_idx_getitem (v_corpus v) k = Ok a.
Proof.
  intros H. apply script_run in H. inversion H as [v w1 Hv ? ? ? Hfs ? ? |]; subst.
  exists v. split; [done|]. split; [rewrite Hfs; apply lookup_insert_eq|].
  destruct Hv as (_ & _ & _ & _ & Hints & Hau & _).
  apply comprehension_Forall2 in Hau.
  split; [done|]. split.
  - symmetry. eapply Forall2_length, Hau.
  - intros i k Hk.
    destruct (Forall2_lookup_l _ _ _ _ _ Hau Hk) as (a & Ha & Hf). eauto.
Qed.

(** C10: a complete run prints the shape of the matrix, the titles, the
    authors and the feature names, in this order and nothing else, and
    all four before it opens and writes the file. *)
Theorem prints_precede_serialization w w' :
  script w = (Ok tt, w') ->
  exists v t,
    bound_by (fs w) v /\
    trace w' = trace w ++ t /\
    stdout w' =
      stdout w ++ [v_shape v; v_titles v; PyList (v_authors v); v_words v] /\
    outputs t =
      [Print (v_shape v); Print (v_titles v); Print (PyList (v_authors v));
       Print (v_words v); Open "dummy.p" "wb"; Dump (artifact v) "dummy.p"].
Proof.
  intros H. apply script_run in H. inversion H as [v w1 Hv ? ? Ht ? Ho ? |]; subst.
  exists v, (complete_trace v).
  split; [exact Hv|]. split; [exact Ht|]. split; [exact Ho | reflexivity].
Qed.

End Claims.

(** ** The properties on the sample runs *)

Section SampleRuns.

#[local] Existing Instance Sample.lib.

Lemma serializer_writes_one_artifact_witness :
  script (lib := Sample.lib) Sample.world = (Ok tt, Sample.world_after) /\
  exists v t,
    bound_by (fs Sample.world) v /\
    trace Sample.world_after = trace Sample.world ++ t /\
    file_ops t =
      [Open "dummy.p" "wb";
       Dump (PyTuple [v_titles v; PyList (v_authors v); v_words v; v_array v])
         "dummy.p"] /\
    fs Sample.world_after !! "dummy.p" =
      Some (File [Pickled (PyTuple [v_titles v; PyList (v_authors v);
                                    v_words v; v_array v])]) /\
    forall path, path <> "dummy.p" ->
      fs Sample.world_after !! path = fs Sample.world !! path.
Proof.
  split; [vm_compute; reflexivity|].
  apply (serializer_writes_one_artifact (lib := Sample.lib)).
  vm_compute; reflexivity.
Defined.

Lemma parameters_are_hardcoded_witness :
  script (lib := Sample.lib) Sample.world = (Ok tt, Sample.world_after) /\
  (exists t,
     trace Sample.world_after = trace Sample.world ++ t /\
     calls t `prefix_of`
       [("Corpus", [(Some "language", AStr "en")]);
        ("add_directory", [(None, AStr "data/victorian")]);
        ("preprocess", []);
        ("tokenize", [(Some "max_size", AInt 50000)]);
        ("vectorize",
         [(Some "mfi", AInt 100); (Some "ngram_type", AStr "word");
          (Some "vector_space", AStr "tf")])] /\
     (Ok tt = Ok tt -> calls t = expected_calls)) /\
  forall av en,
    script (lib := Sample.lib) (with_invocation av en Sample.world) =
      (Ok tt, with_invocation av en Sample.world_after).
Proof.
  split; [vm_compute; reflexivity|].
  apply (parameters_are_hardcoded (lib := Sample.lib)).
  vm_compute; reflexivity.
Defined.

Lemma stages_run_in_order_witness :
  script (lib := Sample.lib) Sample.empty_world =
    (Err Sample.load_error, Sample.empty_world_after) /\
  exists t,
    trace Sample.empty_world_after = trace Sample.empty_world ++ t /\
    outline t `prefix_of`
      [Enter "Corpus"; Leave "Corpus";
       Enter "add_directory"; Leave "add_directory";
       Enter "preprocess"; Leave "preprocess";
       Enter "tokenize"; Leave "tokenize";
       Enter "vectorize"; Leave "vectorize";
       Opened "dummy.p" "wb"; Dumped "dummy.p"] /\
    (forall m, m ∈ stage_methods -> Leave m ∉ outline t ->
       file_ops t = [] /\ fs Sample.empty_world_after = fs Sample.empty_world) /\
    (forall e, stages (lib := Sample.lib) (fs Sample.empty_world) = Err e ->
       @Err unit Sample.load_error = Err e /\ file_ops t = [] /\
       fs Sample.empty_world_after = fs Sample.empty_world).
Proof.
  split; [vm_compute; reflexivity|].
  apply (stages_run_in_order (lib := Sample.lib)).
  vm_compute; reflexivity.
Defined.

Lemma errors_abort_with_nonzero_status_witness :
  python (script (lib := Sample.lib)) Sample.empty_world =
    (1, set_stderr [Sample.load_error] Sample.empty_world_after) /\
  (exists t,
     trace (set_stderr [Sample.load_error] Sample.empty_world_after) =
       trace Sample.empty_world ++ t /\
     ((1 = 0 /\ (script (lib := Sample.lib) Sample.empty_world).1 = Ok tt /\
       raises t = [] /\
       stderr (set_stderr [Sample.load_error] Sample.empty_world_after) =
         stderr Sample.empty_world) \/
      (1 = 1 /\
       exists e, (script (lib := Sample.lib) Sample.empty_world).1 = Err e /\
                 last t = Some (Raised e) /\ raises t = [e] /\
                 stderr (set_stderr [Sample.load_error] Sample.empty_world_after) =
                   stderr Sample.empty_world ++ [e]))) /\
  (forall e, stages (lib := Sample.lib) (fs Sample.empty_world) = Err e ->
     1 = 1 /\
     stderr (set_stderr [Sample.load_error] Sample.empty_world_after) =
       stderr Sample.empty_world ++ [e]).
Proof.
  split; [vm_compute; reflexivity|].
  apply (errors_abort_with_nonzero_status (lib := Sample.lib)).
  vm_compute; reflexivity.
Defined.

Lemma authors_follow_target_ints_witness :
  script (lib := Sample.lib) Sample.world = (Ok tt, Sample.world_after) /\
  exists v,
    bound_by (lib := Sample.lib) (fs Sample.world) v /\
    fs Sample.world_after !! "dummy.p" =
      Some (File [Pickled (PyTuple [v_titles v; PyList (v_authors v);
                                    v_words v; v_array v])]) /\
    target_ints (v_corpus v) = Ok (v_target_ints v) /\
    length (v_authors v) = length (v_target_ints v) /\
    forall (i : nat) k,
      v_target_ints v !! i = Some k ->
      exists a, v_authors v !! i = Some a /\
                target_idx_getitem (v_corpus v) k = Ok a.
Proof.
  split; [vm_compute; reflexivity|].
  apply (authors_follow_target_ints (lib := Sample.lib)).
  vm_compute; reflexivity.
Defined.

Lemma prints_precede_serialization_witness :
  script (lib := Sample.lib) Sample.world = (Ok tt, Sample.world_after) /\
  exists v t,
    bound_by (lib := Sample.lib) (fs Sample.world) v /\
    trace Sample.world_after = trace Sample.world ++ t /\
    stdout Sample.world_after =
      stdout Sample.world ++
        [v_shape v; v_titles v; PyList (v_authors v); v_words v] /\
    outputs t =
      [Print (v_shape v); Print (v_titles v); Print (PyList (v_authors v));
       Print (v_words v); Open "dummy.p" "wb"; Dump (artifact v) "dummy.p"].
Proof.
  split; [vm_compute; reflexivity|].
  apply (prints_precede_serialization (lib := Sample.lib)).
  vm_compute; reflexivity.
Defined.

End SampleRuns.

(** ** When a run completes *)

Section Completion.

Context {lib : PyStyl}.

Lemma stages_Ok files c :
  stages files = Ok c ->
  exists c0 c1 c2 c3,
    Corpus_new "en" = Ok c0 /\
    add_directory files "data/victorian" c0 = Ok c1 /\
    preprocess c1 = Ok c2 /\
    tokenize 50000 c2 = Ok c3 /\
    vectorize 100 "word" "tf" c3 = Ok c.
Proof.
  unfold stages. intros H.
  destruct (Corpus_new "en") as [c0|] eqn:E0; [|discriminate]. cbn in H.
  destruct (add_directory files "data/victorian" c0) as [c1|] eqn:E1;
    [|discriminate]. cbn in H.
  destruct (preprocess c1) as [c2|] eqn:E2; [|discriminate]. cbn in H.
  destruct (tokenize 50000 c2) as [c3|] eqn:E3; [|discriminate]. cbn in H.
  exists c0, c1, c2, c3. auto.
Qed.

Lemma open_wb_Ok path w :
  fs w !! path <> Some Dir -> path ∉ readonly w ->
  open_wb path w =
    (Ok path,
     set_trace (trace w ++ [Open path "wb"]) (set_fs (<[path := File []]> (fs w)) w)).
Proof.
  intros Hd Hr. destruct (open_wb_cases path w) as [[e He]|(_ & _ & Ho)]; [|done].
  unfold open_wb, raise in He.
  destruct (fs w !! path) as [[|content]|]; [done| |];
    destruct (decide (path ∈ readonly w)); done.
Qed.

Lemma script_complete w v :
  bound_by (fs w) v ->
  fs w !! "dummy.p" <> Some Dir ->
  "dummy.p" ∉ readonly w ->
  script w = (Ok tt, final_world w v).
Proof.
  intros (Hs & HX & Hsh & Ht & Hi & Ha & Hw & Hd) Hdir Hro.
  apply stages_Ok in Hs as (c0 & c1 & c2 & c3 & E0 & E1 & E2 & E3 & E4).
  destruct v as [c X sh t ints au wd arr].
  destruct w as [files ro av en out err tr].
  cbn [fs readonly v_corpus v_X v_shape v_titles v_target_ints v_authors v_words
       v_array] in *.
  run_known.
  rewrite open_wb_Ok by done. rewrite pickle_dump_fresh.
  unfold final_world, printed, complete_trace, artifact.
  cbn [fs readonly argv environ stdout stderr trace set_fs set_trace
       v_corpus v_X v_shape v_titles v_target_ints v_authors v_words v_array].
  rewrite <- !(assoc_L (++)). reflexivity.
Qed.

End Completion.

(** ** What a run leaves alone *)

Create HintDb keeps.

Section Keeping.

Context {lib : PyStyl}.

Lemma keeps_ret {A} (a : A) : keeps (ret a).
Proof. intros w. auto. Qed.

Lemma keeps_bind {A B} (m : M A) (k : A -> M B) :
  keeps m -> (forall a, keeps (k a)) -> keeps (bind m k).
Proof.
  intros Hm Hk w. unfold bind. specialize (Hm w).
  destruct (m w) as [[a|e] w1]; cbn [fst snd] in *; [|exact Hm].
  destruct (Hk a w1) as (-> & -> & ->). exact Hm.
Qed.

Lemma keeps_log ev : keeps (log ev).
Proof. intros w. auto. Qed.

Lemma keeps_raise {A} e : keeps (@raise A e).
Proof. intros w. auto. Qed.

Lemma keeps_lift {A} (r : result A) : keeps (lift r).
Proof. destruct r; [apply keeps_ret | apply keeps_raise]. Qed.

Lemma keeps_read_fs : keeps read_fs.
Proof. intros w. auto. Qed.

Lemma keeps_print o : keeps (print o).
Proof. intros w. auto. Qed.

Lemma keeps_open_wb path : keeps (open_wb path).
Proof.
  intros w. unfold open_wb.
  destruct (fs w !! path) as [[|content]|];
    try destruct (decide (path ∈ readonly w)); auto.
Qed.

Lemma keeps_pickle_dump obj f : keeps (pickle_dump obj f).
Proof.
  intros w. unfold pickle_dump.
  destruct (fs w !! f) as [[|content]|]; auto.
Qed.

Hint Resolve keeps_ret keeps_log keeps_raise keeps_lift keeps_read_fs
  keeps_print keeps_open_wb keeps_pickle_dump : keeps.

Lemma keeps_method {A} name args (body : result A) : keeps (method name args body).
Proof. unfold method. repeat (apply keeps_bind; [|intros]); auto with keeps. Qed.

Lemma keeps_script : keeps script.
Proof.
  unfold script, call_Corpus, call_add_directory, call_preprocess, call_tokenize,
    call_vectorize.
  repeat (apply keeps_bind; [|intros]); auto using keeps_method with keeps.
Qed.

End Keeping.

(** ** Where a list comprehension stops *)

Lemma comprehension_first_error {A B} (f : A -> result B) seen k rest ys e :
  comprehension f seen = Ok ys ->
  f k = Err e ->
  comprehension f (seen ++ k :: rest) = Err e.
Proof.
  revert ys. induction seen as [|x seen IH]; intros ys Hs Hk; cbn.
  - by rewrite Hk.
  - cbn in Hs. destruct (f x) as [y|]; [|discriminate].
    destruct (comprehension f seen) as [ys'|]; [|discriminate].
    by rewrite (IH ys').
Qed.

(** X9: a list comprehension gives a list exactly when every element
    gives a value, element by element and in order; it raises [e] exactly
    when [e] is raised by the first element that raises. *)
Theorem comprehension_outcome {A B} (f : A -> result B) (l : list A) :
  (forall ys, comprehension f l = Ok ys <-> Forall2 (fun x y => f x = Ok y) l ys) /\
  (forall e,
     comprehension f l = Err e <->
     exists seen k rest found,
       l = seen ++ k :: rest /\
       comprehension f seen = Ok found /\
       f k = Err e).
Proof.
  split.
  - intros ys. split; [apply comprehension_Forall2|].
    induction 1 as [|x y l' ys' Hx _ IH]; cbn; [done|]. by rewrite Hx, IH.
  - intros e. split.
    + induction l as [|x l' IH]; cbn; [discriminate|].
      destruct (f x) as [y|e'] eqn:Hx.
      * destruct (comprehension f l') as [ys|e''] eqn:Hl; [discriminate|].
        intros [= <-].
        destruct IH as (seen & k & rest & found & -> & Hs & Hk); [done|].
        exists (x :: seen), k, rest, (y :: found).
        split; [done|]. split; [|done]. cbn. by rewrite Hx, Hs.
      * intros [= <-]. exists [], x, l', []. auto.
    + intros (seen & k & rest & found & -> & Hs & Hk).
      by apply comprehension_first_error with found.
Qed.

(** ** Further properties of whole runs *)

Section Further.

Context {lib : PyStyl}.

(** X1: a run completes exactly when every evaluation in the library
    succeeds and [dummy.p] is neither a directory nor write-protected. *)
Theorem run_completes_iff w :
  (script w).1 = Ok tt <->
  exists v,
    bound_by (fs w) v /\
    fs w !! "dummy.p" <> Some Dir /\
    "dummy.p" ∉ readonly w.
Proof.
  split.
  - destruct (script w) as [r w'] eqn:H. cbn [fst]. intros ->.
    apply script_run in H. inversion H as [v w1 Hv Hd Hr ? ? ? ? |]; subst.
    exists v. auto.
  - intros (v & Hv & Hd & Hr). by rewrite (script_complete w v).
Qed.

(** X2: when every evaluation succeeds but [dummy.p] is a directory or
    write-protected, the run ends in the exception of [open], after all
    four values have been printed, and the file system is as it was. *)
Theorem unwritable_path_aborts_after_printing w v :
  bound_by (fs w) v ->
  fs w !! "dummy.p" = Some Dir \/ "dummy.p" ∈ readonly w ->
  exists e w',
    script w = (Err e, w') /\
    (e = Exn "IsADirectoryError" "dummy.p" \/ e = Exn "PermissionError" "dummy.p") /\
    stdout w' = stdout w ++ [v_shape v; v_titles v; PyList (v_authors v); v_words v] /\
    fs w' = fs w.
Proof.
  intros (Hs & HX & Hsh & Ht & Hi & Ha & Hw & Hd) Hbad.
  apply stages_Ok in Hs as (c0 & c1 & c2 & c3 & E0 & E1 & E2 & E3 & E4).
  destruct v as [c X sh t ints au wd arr].
  destruct w as [files ro av en out err tr].
  cbn [fs readonly stdout v_corpus v_X v_shape v_titles v_target_ints v_authors
       v_words v_array] in *.
  run_known. unfold open_wb, raise. cbn [fs readonly trace stdout set_trace].
  destruct (files !! "dummy.p") as [[|content]|] eqn:Hn.
  - eexists _, _. split; [reflexivity|]. split; [by left|].
    cbn [stdout fs]. rewrite <- !(assoc_L (++)). done.
  - destruct Hbad as [?|Hro]; [done|].
    destruct (decide ("dummy.p" ∈ ro)); [|done].
    eexists _, _. split; [reflexivity|]. split; [by right|].
    cbn [stdout fs]. rewrite <- !(assoc_L (++)). done.
  - destruct Hbad as [?|Hro]; [done|].
    destruct (decide ("dummy.p" ∈ ro)); [|done].
    eexists _, _. split; [reflexivity|]. split; [by right|].
    cbn [stdout fs]. rewrite <- !(assoc_L (++)). done.
Qed.

(** X3: when [X.toarray()] raises, the run ends in that exception
    before [dummy.p] is opened: the four values have been printed, no
    file operation has happened and the file system, with any older
    [dummy.p], is as it was. *)
Theorem failed_toarray_opens_nothing w c X sh t ints au wd e :
  stages (fs w) = Ok c ->
  vectorizer_X c = Ok X ->
  shape X = Ok sh ->
  titles c = Ok t ->
  target_ints c = Ok ints ->
  comprehension (target_idx_getitem c) ints = Ok au ->
  feature_names c = Ok wd ->
  toarray X = Err e ->
  exists w' l,
    script w = (Err e, w') /\
    trace w' = trace w ++ l /\
    file_ops l = [] /\
    stdout w' = stdout w ++ [sh; t; PyList au; wd] /\
    fs w' = fs w.
Proof.
  intros Hs HX Hsh Ht Hi Ha Hw Hd.
  apply stages_Ok in Hs as (c0 & c1 & c2 & c3 & E0 & E1 & E2 & E3 & E4).
  destruct w as [files ro av en out err tr]. cbn [fs stdout trace] in *.
  eexists _, _. split; [run_known; reflexivity|].
  cbn [trace stdout fs]. rewrite <- !(assoc_L (++)).
  split; [reflexivity|]. split; [reflexivity|]. split; reflexivity.
Qed.

(** X4: when a lookup in [target_idx] raises, the run ends in the
    exception of the first element of [target_ints] whose lookup fails:
    the shape and the titles have been printed, the authors have not,
    and the file system is as it was. *)
Theorem first_failing_lookup_is_raised w c X sh t seen k rest found e :
  stages (fs w) = Ok c ->
  vectorizer_X c = Ok X ->
  shape X = Ok sh ->
  titles c = Ok t ->
  target_ints c = Ok (seen ++ k :: rest) ->
  comprehension (target_idx_getitem c) seen = Ok found ->
  target_idx_getitem c k = Err e ->
  exists w',
    script w = (Err e, w') /\
    stdout w' = stdout w ++ [sh; t] /\
    fs w' = fs w.
Proof.
  intros Hs HX Hsh Ht Hi Hseen Hk.
  pose proof (comprehension_first_error _ _ _ rest _ _ Hseen Hk) as Ha.
  apply stages_Ok in Hs as (c0 & c1 & c2 & c3 & E0 & E1 & E2 & E3 & E4).
  destruct w as [files ro av en out err tr]. cbn [fs stdout] in *.
  eexists. split; [run_known; reflexivity|].
  cbn [stdout fs]. rewrite <- !(assoc_L (++)). split; reflexivity.
Qed.

(** X5: no run changes the permissions, the command line or the
    environment, and no run changes any path other than [dummy.p]. *)
Theorem run_keeps_the_rest_of_the_world w :
  readonly (script w).2 = readonly w /\
  argv (script w).2 = argv w /\
  environ (script w).2 = environ w /\
  forall path, path <> "dummy.p" -> fs (script w).2 !! path = fs w !! path.
Proof.
  destruct (keeps_script w) as (Hr & Ha & He).
  split; [exact Hr|]. split; [exact Ha|]. split; [exact He|].
  intros path Hne. destruct (script w) as [r w'] eqn:H. cbn [snd].
  apply script_run in H.
  inversion H as [v w1 ? ? ? ? Hfs ? ? | e l w1 ? ? ? ? ? ? ? Hfs ? ?]; subst.
  - rewrite Hfs. by apply lookup_insert_ne.
  - by rewrite Hfs.
Qed.

(** X6: when the loader does not depend on what is at [dummy.p], a run
    started in the world a complete run left behind completes too, prints
    the same four values again and writes the same artifact: the file
    system after the second run is the one after the first. *)
Theorem rerun_rewrites_the_same_artifact w w1 :
  (forall files nd c,
     add_directory (<["dummy.p" := nd]> files) "data/victorian" c =
     add_directory files "data/victorian" c) ->
  script w = (Ok tt, w1) ->
  exists v w2,
    script w1 = (Ok tt, w2) /\
    fs w1 !! "dummy.p" = Some (File [Pickled (artifact v)]) /\
    fs w2 = fs w1 /\
    stdout w1 = stdout w ++ printed v /\
    stdout w2 = stdout w1 ++ printed v.
Proof.
  intros Hframe H.
  destruct (keeps_script w) as (Hro & _). rewrite H in Hro. cbn [snd] in Hro.
  apply script_run in H.
  inversion H as [v w' Hv Hd Hr ? Hfs Hout ? |]; subst.
  assert (Hv1 : bound_by (fs w1) v).
  { destruct Hv as (Hs & Hrest). split; [|exact Hrest].
    rewrite Hfs, <- Hs. unfold stages.
    destruct (Corpus_new "en"); cbn [and_then]; [|done]. by rewrite Hframe. }
  exists v, (final_world w1 v). split.
  - apply script_complete; [exact Hv1 | |].
    + rewrite Hfs, lookup_insert_eq. done.
    + by rewrite Hro.
  - split; [rewrite Hfs; apply lookup_insert_eq|].
    split; [|split; [exact Hout | reflexivity]].
    unfold final_world. cbn [fs]. rewrite Hfs. apply insert_insert_eq.
Qed.

(** X7: the script has no guard against an empty corpus: when
    [target_ints] is empty and the other evaluations succeed, the run
    completes, prints an empty list of authors and pickles a tuple whose
    authors are the empty list. *)
Theorem empty_corpus_is_still_pickled w v :
  bound_by (fs w) v ->
  v_target_ints v = [] ->
  fs w !! "dummy.p" <> Some Dir ->
  "dummy.p" ∉ readonly w ->
  exists w',
    script w = (Ok tt, w') /\
    fs w' !! "dummy.p" =
      Some (File [Pickled (PyTuple [v_titles v; PyList []; v_words v; v_array v])]) /\
    stdout w' = stdout w ++ [v_shape v; v_titles v; PyList []; v_words v].
Proof.
  intros Hv Hempty Hd Hr. exists (final_world w v).
  split; [by apply script_complete|].
  destruct Hv as (_ & _ & _ & _ & _ & Ha & _).
  rewrite Hempty in Ha. cbn in Ha. injection Ha as Ha.
  unfold final_world, artifact, printed. cbn [fs stdout]. rewrite <- Ha.
  split; [apply lookup_insert_eq | reflexivity].
Qed.

(** X8: when a library stage raises, the run ends in that exception
    with nothing printed: standard output and the file system are as
    they were. *)
Theorem failed_stage_prints_nothing w e :
  stages (fs w) = Err e ->
  exists w',
    script w = (Err e, w') /\
    stdout w' = stdout w /\
    fs w' = fs w.
Proof.
  intros H. destruct w as [files ro av en out err tr]. cbn [fs stdout] in *.
  unfold stages in H.
  destruct (Corpus_new "en") as [c0|e0] eqn:E0; cbn [and_then] in H;
    [|injection H as ->; eexists; split; [run_known; reflexivity | by split]].
  destruct (add_directory files "data/victorian" c0) as [c1|e1] eqn:E1;
    cbn [and_then] in H;
    [|injection H as ->; eexists; split; [run_known; reflexivity | by split]].
  destruct (preprocess c1) as [c2|e2] eqn:E2; cbn [and_then] in H;
    [|injection H as ->; eexists; split; [run_known; reflexivity | by split]].
  destruct (tokenize 50000 c2) as [c3|e3] eqn:E3; cbn [and_then] in H;
    [|injection H as ->; eexists; split; [run_known; reflexivity | by split]].
  eexists; split; [run_known; reflexivity | by split].
Qed.

End Further.

(** ** The further properties on sample runs *)

Section SampleWorlds.

#[local] Existing Instance Sample.lib.

Lemma run_completes_iff_witness :
  (script Sample.world).1 = Ok tt <->
  exists v,
    bound_by (fs Sample.world) v /\
    fs Sample.world !! "dummy.p" <> Some Dir /\
    "dummy.p" ∉ readonly Sample.world.
Proof. apply (run_completes_iff (lib := Sample.lib)). Defined.

Lemma unwritable_path_aborts_after_printing_witness :
  bound_by (fs Variants.locked_world) Sample.values /\
  "dummy.p" ∈ readonly Variants.locked_world /\
  exists e w',
    script Variants.locked_world = (Err e, w') /\
    (e = Exn "IsADirectoryError" "dummy.p" \/ e = Exn "PermissionError" "dummy.p") /\
    stdout w' =
      stdout Variants.locked_world ++
        [v_shape Sample.values; v_titles Sample.values;
         PyList (v_authors Sample.values); v_words Sample.values] /\
    fs w' = fs Variants.locked_world.
Proof.
  assert (Hv : bound_by (fs Variants.locked_world) Sample.values)
    by (vm_compute; repeat split; reflexivity).
  assert (Hr : "dummy.p" ∈ readonly Variants.locked_world)
    by (vm_compute; reflexivity).
  split; [exact Hv|]. split; [exact Hr|].
  apply (unwritable_path_aborts_after_printing (lib := Sample.lib) _ _ Hv).
  right. exact Hr.
Defined.

Lemma run_keeps_the_rest_of_the_world_witness :
  readonly (script Sample.world).2 = readonly Sample.world /\
  argv (script Sample.world).2 = argv Sample.world /\
  environ (script Sample.world).2 = environ Sample.world /\
  forall path, path <> "dummy.p" ->
    fs (script Sample.world).2 !! path = fs Sample.world !! path.
Proof. apply (run_keeps_the_rest_of_the_world (lib := Sample.lib)). Defined.

Lemma rerun_rewrites_the_same_artifact_witness :
  script Sample.world = (Ok tt, Sample.world_after) /\
  exists v w2,
    script Sample.world_after = (Ok tt, w2) /\
    fs Sample.world_after !! "dummy.p" = Some (File [Pickled (artifact v)]) /\
    fs w2 = fs Sample.world_after /\
    stdout Sample.world_after = stdout Sample.world ++ printed v /\
    stdout w2 = stdout Sample.world_after ++ printed v.
Proof.
  split; [vm_compute; reflexivity|].
  apply (rerun_rewrites_the_same_artifact (lib := Sample.lib)).
  - intros files nd c. cbn [add_directory Sample.lib]. unfold Sample.load.
    rewrite lookup_insert_ne by discriminate. reflexivity.
  - vm_compute; reflexivity.
Defined.

Lemma failed_stage_prints_nothing_witness :
  stages (fs Sample.empty_world) = Err Sample.load_error /\
  exists w',
    script Sample.empty_world = (Err Sample.load_error, w') /\
    stdout w' = stdout Sample.empty_world /\
    fs w' = fs Sample.empty_world.
Proof.
  split; [vm_compute; reflexivity|].
  apply (failed_stage_prints_nothing (lib := Sample.lib)).
  vm_compute; reflexivity.
Defined.

Lemma comprehension_outcome_witness :
  (forall ys,
     comprehension (Sample.category_of (v_corpus Sample.values))
       [PyInt 0; PyInt 5; PyInt 1] = Ok ys <->
     Forall2 (fun x y => Sample.category_of (v_corpus Sample.values) x = Ok y)
       [PyInt 0; PyInt 5; PyInt 1] ys) /\
  (forall e,
     comprehension (Sample.category_of (v_corpus Sample.values))
       [PyInt 0; PyInt 5; PyInt 1] = Err e <->
     exists seen k rest found,
       [PyInt 0; PyInt 5; PyInt 1] = seen ++ k :: rest /\
       comprehension (Sample.category_of (v_corpus Sample.values)) seen = Ok found /\
       Sample.category_of (v_corpus Sample.values) k = Err e).
Proof. apply comprehension_outcome. Defined.

End SampleWorlds.

Section TooLarge.

#[local] Existing Instance Variants.too_large.

Lemma failed_toarray_opens_nothing_witness :
  toarray (v_X Sample.values) = Err Variants.out_of_memory /\
  exists w' l,
    script Sample.world = (Err Variants.out_of_memory, w') /\
    trace w' = trace Sample.world ++ l /\
    file_ops l = [] /\
    stdout w' =
      stdout Sample.world ++
        [v_shape Sample.values; v_titles Sample.values;
         PyList (v_authors Sample.values); v_words Sample.values] /\
    fs w' = fs Sample.world.
Proof.
  split; [vm_compute; reflexivity|].
  apply (failed_toarray_opens_nothing (lib := Variants.too_large) Sample.world
           (v_corpus Sample.values) (v_X Sample.values) _ _
           (v_target_ints Sample.values));
    vm_compute; reflexivity.
Defined.

End TooLarge.

Section Mislabelled.

#[local] Existing Instance Variants.mislabelled.

Lemma first_failing_lookup_is_raised_witness :
  target_idx_getitem
    (Sample.mkCorpus "en" ["a"; "b"] ["Smith"] [0; 1] ["the"; "of"; "and"]
       [[3; 1; 2]; [2; 2; 0]])
    (PyInt 1) = Err Variants.index_error /\
  exists w',
    script Sample.world = (Err Variants.index_error, w') /\
    stdout w' =
      stdout Sample.world ++ [PyTuple [PyInt 2; PyInt 3]; PyList [PyStr "a"; PyStr "b"]] /\
    fs w' = fs Sample.world.
Proof.
  split; [vm_compute; reflexivity|].
  apply (first_failing_lookup_is_raised (lib := Variants.mislabelled) Sample.world
           (Sample.mkCorpus "en" ["a"; "b"] ["Smith"] [0; 1] ["the"; "of"; "and"]
              [[3; 1; 2]; [2; 2; 0]])
           (v_X Sample.values) _ _ [PyInt 0] (PyInt 1) [] [PyStr "Smith"]);
    vm_compute; reflexivity.
Defined.

End Mislabelled.

Section NoDocuments.

#[local] Existing Instance Variants.no_documents.

Lemma empty_corpus_is_still_pickled_witness :
  bound_by (fs Sample.world) Variants.empty_values /\
  exists w',
    script Sample.world = (Ok tt, w') /\
    fs w' !! "dummy.p" =
      Some (File [Pickled (PyTuple [v_titles Variants.empty_values; PyList [];
                                    v_words Variants.empty_values;
                                    v_array Variants.empty_values])]) /\
    stdout w' =
      stdout Sample.world ++
        [v_shape Variants.empty_values; v_titles Variants.empty_values;
         PyList []; v_words Variants.empty_values].
Proof.
  assert (Hv : bound_by (fs Sample.world) Variants.empty_values)
    by (vm_compute; repeat split; reflexivity).
  split; [exact Hv|].
  apply (empty_corpus_is_still_pickled (lib := Variants.no_documents) _ _ Hv).
  - reflexivity.
  - vm_compute. discriminate.
  - apply not_elem_of_empty.
Defined.

End NoDocuments.
